(** * lenovo_tray.py: the cached settings of the tray application

    A shallow embedding of the settings logic of [LenovoTrayApp]
    (src/lenovo_tray.py): the [SettingStatus] enumeration, the reads of the
    three backing files ([read_file_value], [read_initial_status],
    [update_status]), the privileged write ([write_file_value]) and the three
    menu handlers ([toggle_conservation_mode], [toggle_fnlock],
    [cycle_kbd_leds]).

    Python text is modelled by [string]; a character stands for the code point
    of the same number (U+0000 to U+00FF).  The icon drawing and the
    diagnostics printed on stdout are left out: no handler reads them back. *)

From Stdlib Require Import ZArith List String Ascii Bool Lia.
Import ListNotations.
Open Scope string_scope.
Open Scope Z_scope.

(** ** The [SettingStatus] enumeration *)

Module Enum.

(** A member of a Python [Enum] class: the name it was first bound to and
    its value. *)
Record Member := { name : string; value : Z }.

Definition by_value (v : Z) (members : list Member) : option Member :=
  find (fun m => value m =? v) members.

(** What the [Enum] metaclass does with a class body, read in definition
    order: a name whose value is new creates a member; a name whose value an
    earlier member already has becomes one more name of that member (an
    alias).  The result is the list of members and the map from every name
    of the body to its member. *)
Fixpoint build (body : list (string * Z)) (members : list Member)
         (member_map : list (string * Member))
  : list Member * list (string * Member) :=
  match body with
  | [] => (members, member_map)
  | (n, v) :: rest =>
      match by_value v members with
      | Some m => build rest members (member_map ++ [(n, m)])
      | None =>
          let m := {| name := n; value := v |} in
          build rest (members ++ [m]) (member_map ++ [(n, m)])
      end
  end.

Definition members (body : list (string * Z)) : list Member :=
  fst (build body [] []).

(** Attribute access [Cls.NAME]. *)
Definition getattr (body : list (string * Z)) (n : string) : option Member :=
  option_map snd
    (find (fun e => String.eqb (fst e) n) (snd (build body [] []))).

End Enum.

(** The body of [class SettingStatus(Enum)], lines 20-30. *)
Definition SettingStatus_body : list (string * Z) :=
  [ ("CONSERVATION_DISABLED", 0); ("CONSERVATION_ENABLED", 1);
    ("FNLOCK_DISABLED", 0); ("FNLOCK_ENABLED", 1);
    ("KBD_LED_OFF", 0); ("KBD_LED_MIN", 1); ("KBD_LED_MAX", 2) ].

(** The members of the class: one per distinct value, under the first name
    bound to it ([SettingStatus_members] below checks this list against
    [Enum.build]). *)
Inductive SettingStatus : Type :=
| CONSERVATION_DISABLED
| CONSERVATION_ENABLED
| KBD_LED_MAX.

Definition member_of (s : SettingStatus) : Enum.Member :=
  match s with
  | CONSERVATION_DISABLED =>
      {| Enum.name := "CONSERVATION_DISABLED"; Enum.value := 0 |}
  | CONSERVATION_ENABLED =>
      {| Enum.name := "CONSERVATION_ENABLED"; Enum.value := 1 |}
  | KBD_LED_MAX => {| Enum.name := "KBD_LED_MAX"; Enum.value := 2 |}
  end.

(** [SettingStatus.NAME]: the member the class gives for an attribute name. *)
Definition SettingStatus_attr (n : string) : option SettingStatus :=
  match Enum.getattr SettingStatus_body n with
  | Some m =>
      find (fun s => String.eqb (Enum.name (member_of s)) (Enum.name m))
           [CONSERVATION_DISABLED; CONSERVATION_ENABLED; KBD_LED_MAX]
  | None => None
  end.

(** The four remaining names of the class body, as the class resolves them. *)
Definition FNLOCK_DISABLED : SettingStatus := CONSERVATION_DISABLED.
Definition FNLOCK_ENABLED : SettingStatus := CONSERVATION_ENABLED.
Definition KBD_LED_OFF : SettingStatus := CONSERVATION_DISABLED.
Definition KBD_LED_MIN : SettingStatus := CONSERVATION_ENABLED.

(** [a == b] on members (identity of the member objects). *)
Definition status_eqb (a b : SettingStatus) : bool :=
  match a, b with
  | CONSERVATION_DISABLED, CONSERVATION_DISABLED => true
  | CONSERVATION_ENABLED, CONSERVATION_ENABLED => true
  | KBD_LED_MAX, KBD_LED_MAX => true
  | _, _ => false
  end.

(** ** Text: [str.strip] and [int] *)

(** [str.isspace] on one character, for code points below U+0100. *)
Definition isspace (c : ascii) : bool :=
  let n := nat_of_ascii c in
  (((9 <=? n) && (n <=? 13)) || ((28 <=? n) && (n <=? 32))
   || (n =? 133) || (n =? 160))%nat.

Fixpoint lstrip (s : string) : string :=
  match s with
  | EmptyString => EmptyString
  | String c s' => if isspace c then lstrip s' else s
  end.

Fixpoint rstrip (s : string) : string :=
  match s with
  | EmptyString => EmptyString
  | String c s' =>
      match rstrip s' with
      | EmptyString => if isspace c then EmptyString else String c EmptyString
      | r => String c r
      end
  end.

(** [s.strip()] *)
Definition strip (s : string) : string := rstrip (lstrip s).

(** The white space [int] skips around the number: the ASCII white space of
    the C parser, and the two other white-space characters below U+0100,
    which [int] turns into spaces first. *)
Definition int_isspace (c : ascii) : bool :=
  let n := nat_of_ascii c in
  (((9 <=? n) && (n <=? 13)) || (n =? 32) || (n =? 133) || (n =? 160))%nat.

Fixpoint int_lskip (s : string) : string :=
  match s with
  | EmptyString => EmptyString
  | String c s' => if int_isspace c then int_lskip s' else s
  end.

Fixpoint int_rskip (s : string) : string :=
  match s with
  | EmptyString => EmptyString
  | String c s' =>
      match int_rskip s' with
      | EmptyString =>
          if int_isspace c then EmptyString else String c EmptyString
      | r => String c r
      end
  end.

Definition digit_value (c : ascii) : option Z :=
  let n := nat_of_ascii c in
  if ((48 <=? n) && (n <=? 57))%nat then Some (Z.of_nat n - 48) else None.

(** The digits of a base-10 literal: at least one digit, single underscores
    allowed between digits only.  [after_underscore] also holds at the start,
    where an underscore is refused as well.  Returns the magnitude and the
    number of digits read. *)
Fixpoint scan_digits (s : string) (after_underscore : bool) (acc : Z)
         (ndigits : nat) : option (Z * nat) :=
  match s with
  | EmptyString => if after_underscore then None else Some (acc, ndigits)
  | String c s' =>
      if Ascii.eqb c "_"%char then
        if after_underscore then None else scan_digits s' true acc ndigits
      else
        match digit_value c with
        | Some d => scan_digits s' false (10 * acc + d) (S ndigits)
        | None => None
        end
  end.

Definition split_sign (s : string) : Z * string :=
  match s with
  | String c s' =>
      if Ascii.eqb c "-"%char then (-1, s')
      else if Ascii.eqb c "+"%char then (1, s')
      else (1, s)
  | EmptyString => (1, s)
  end.

(** [int(s)] for a [str] argument, base 10: [None] stands for [ValueError].
    [max_str_digits] is [sys.get_int_max_str_digits()]: when it is not 0, a
    literal of more digits is refused (4300 by default since CPython 3.11;
    interpreters without the limit behave as with 0). *)
Definition parse_int (max_str_digits : nat) (s : string) : option Z :=
  let '(sign, body) := split_sign (int_rskip (int_lskip s)) in
  match scan_digits body true 0 0 with
  | Some (magnitude, ndigits) =>
      if ((0 <? max_str_digits) && (max_str_digits <? ndigits))%nat
      then None
      else Some (sign * magnitude)
  | None => None
  end.

(** ** The environment of the process *)

(** Exception classes that reading a file or calling [int] can raise here. *)
Inductive PyExc : Type :=
| FileNotFoundError
| PermissionError
| IsADirectoryError
| OSError
| UnicodeDecodeError
| ValueError.

Definition PyExc_eqb (a b : PyExc) : bool :=
  match a, b with
  | FileNotFoundError, FileNotFoundError
  | PermissionError, PermissionError
  | IsADirectoryError, IsADirectoryError
  | OSError, OSError
  | UnicodeDecodeError, UnicodeDecodeError
  | ValueError, ValueError => true
  | _, _ => false
  end.

(** [isinstance(e, cls)]: the class itself or one of its bases. *)
Definition isinstance (e cls : PyExc) : bool :=
  PyExc_eqb e cls ||
  match cls, e with
  | OSError, (FileNotFoundError | PermissionError | IsADirectoryError) => true
  | ValueError, UnicodeDecodeError => true
  | _, _ => false
  end.

(** What [open(path, 'r')] followed by [f.read()] does. *)
Inductive ReadResult : Type :=
| Returns (text : string)
| Raises (e : PyExc).

(** What [subprocess.run(cmd, input=.., timeout=30)] does. *)
Inductive RunResult : Type :=
| Completed (returncode : Z) (stderr : string)
| TimeoutExpired
| RaisedException (message : string).

(** The answers of the operating system and of the interpreter at the time a
    handler runs. *)
Record World : Type := {
  read_text : string -> ReadResult;
  subprocess_run : list string -> string -> RunResult;
  int_max_str_digits : nat;
  supportsMessages : bool
}.

(** ** The application object *)

(** The fields of [self] that the settings logic reads or writes, and, in
    [calls] and [notifications], what the process has asked of its
    environment so far (latest first): the [subprocess.run] requests as
    command and standard input, the tray messages as title and text. *)
Record LenovoTrayApp : Type := {
  conservation_status : SettingStatus;
  fnlock_status : SettingStatus;
  kbd_led_status : SettingStatus;
  conservation_action : string;
  fnlock_action : string;
  kbd_led_action : string;
  toolTip : string;
  calls : list (list string * string);
  notifications : list (string * string)
}.

Definition set_conservation_status (v : SettingStatus) (a : LenovoTrayApp)
  : LenovoTrayApp :=
  {| conservation_status := v; fnlock_status := fnlock_status a;
     kbd_led_status := kbd_led_status a;
     conservation_action := conservation_action a;
     fnlock_action := fnlock_action a; kbd_led_action := kbd_led_action a;
     toolTip := toolTip a; calls := calls a;
     notifications := notifications a |}.

Definition set_fnlock_status (v : SettingStatus) (a : LenovoTrayApp)
  : LenovoTrayApp :=
  {| conservation_status := conservation_status a; fnlock_status := v;
     kbd_led_status := kbd_led_status a;
     conservation_action := conservation_action a;
     fnlock_action := fnlock_action a; kbd_led_action := kbd_led_action a;
     toolTip := toolTip a; calls := calls a;
     notifications := notifications a |}.

Definition set_kbd_led_status (v : SettingStatus) (a : LenovoTrayApp)
  : LenovoTrayApp :=
  {| conservation_status := conservation_status a;
     fnlock_status := fnlock_status a; kbd_led_status := v;
     conservation_action := conservation_action a;
     fnlock_action := fnlock_action a; kbd_led_action := kbd_led_action a;
     toolTip := toolTip a; calls := calls a;
     notifications := notifications a |}.

Definition set_action_texts (c f k : string) (a : LenovoTrayApp)
  : LenovoTrayApp :=
  {| conservation_status := conservation_status a;
     fnlock_status := fnlock_status a; kbd_led_status := kbd_led_status a;
     conservation_action := c; fnlock_action := f; kbd_led_action := k;
     toolTip := toolTip a; calls := calls a;
     notifications := notifications a |}.

Definition set_toolTip (t : string) (a : LenovoTrayApp) : LenovoTrayApp :=
  {| conservation_status := conservation_status a;
     fnlock_status := fnlock_status a; kbd_led_status := kbd_led_status a;
     conservation_action := conservation_action a;
     fnlock_action := fnlock_action a; kbd_led_action := kbd_led_action a;
     toolTip := t; calls := calls a; notifications := notifications a |}.

Definition add_call (c : list string * string) (a : LenovoTrayApp)
  : LenovoTrayApp :=
  {| conservation_status := conservation_status a;
     fnlock_status := fnlock_status a; kbd_led_status := kbd_led_status a;
     conservation_action := conservation_action a;
     fnlock_action := fnlock_action a; kbd_led_action := kbd_led_action a;
     toolTip := toolTip a; calls := c :: calls a;
     notifications := notifications a |}.

Definition add_notification (n : string * string) (a : LenovoTrayApp)
  : LenovoTrayApp :=
  {| conservation_status := conservation_status a;
     fnlock_status := fnlock_status a; kbd_led_status := kbd_led_status a;
     conservation_action := conservation_action a;
     fnlock_action := fnlock_action a; kbd_led_action := kbd_led_action a;
     toolTip := toolTip a; calls := calls a;
     notifications := n :: notifications a |}.

(** ** Methods as computations on [self]

    A method either returns or raises; what it assigned to [self] before
    raising stays assigned. *)
Definition M (A : Type) : Type := LenovoTrayApp -> (PyExc + A) * LenovoTrayApp.

Definition ret {A : Type} (x : A) : M A := fun self => (inr x, self).

Definition raise {A : Type} (e : PyExc) : M A := fun self => (inl e, self).

Definition bind {A B : Type} (m : M A) (k : A -> M B) : M B :=
  fun self =>
    match m self with
    | (inr x, self') => k x self'
    | (inl e, self') => (inl e, self')
    end.

Definition gets {A : Type} (f : LenovoTrayApp -> A) : M A :=
  fun self => (inr (f self), self).

Definition modify (f : LenovoTrayApp -> LenovoTrayApp) : M unit :=
  fun self => (inr tt, f self).

(** [try: body  except (classes): handler] *)
Definition try_except {A : Type} (body : M A) (classes : list PyExc)
           (handler : PyExc -> M A) : M A :=
  fun self =>
    match body self with
    | (inl e, self') =>
        if existsb (isinstance e) classes then handler e self'
        else (inl e, self')
    | r => r
    end.

Declare Scope py_scope.
Delimit Scope py_scope with py.
Notation "x <- m ;; k" := (bind m (fun x => k))
  (at level 61, m at next level, right associativity) : py_scope.
Notation "m ;; k" := (bind m (fun _ => k))
  (at level 61, right associativity) : py_scope.
Notation "' p <- m ;; k" := (bind m (fun x => let 'p := x in k))
  (at level 61, p pattern, m at next level, right associativity) : py_scope.
Open Scope py_scope.

(** The state a method leaves, and whether it returned or raised. *)
Definition exec {A : Type} (m : M A) (self : LenovoTrayApp) : LenovoTrayApp :=
  snd (m self).
Definition outcome {A : Type} (m : M A) (self : LenovoTrayApp) : PyExc + A :=
  fst (m self).

(** ** The backing files (lines 39-44) *)

(** [os.path.join(a, b)] on POSIX, two components. *)
Definition path_join (a b : string) : string :=
  if String.prefix "/" b then b
  else if String.eqb a EmptyString
          || String.eqb (substring (length a - 1) 1 a) "/"
       then a ++ b
       else a ++ "/" ++ b.

Definition base_folder : string :=
  "/sys/devices/pci0000:00/0000:00:14.3/PNP0C09:00/VPC2004:00/".
Definition conservation_file : string :=
  path_join base_folder "conservation_mode".
Definition fnlock_file : string := path_join base_folder "fn_lock".
Definition kbd_led_file : string :=
  path_join base_folder "leds/platform::kbd_backlight/brightness".

(** ** Methods of [LenovoTrayApp] *)

(** [int(text)] as a call that returns or raises [ValueError]. *)
Definition int (w : World) (text : string) : M Z :=
  match parse_int (int_max_str_digits w) text with
  | Some n => ret n
  | None => raise ValueError
  end.

(** [with open(filepath, 'r') as f: f.read()] *)
Definition open_read (w : World) (filepath : string) : M string :=
  match read_text w filepath with
  | Returns text => ret text
  | Raises e => raise e
  end.

(** Lines 288-295. *)
Definition read_file_value (w : World) (filepath : string)
  : M (option string) :=
  try_except
    (text <- open_read w filepath ;; ret (Some (strip text)))
    [FileNotFoundError; PermissionError]
    (fun _ => ret None).

(** Lines 297-317. *)
Definition write_file_value (w : World) (filepath value : string) : M bool :=
  let cmd := ["pkexec"; "tee"; filepath] in
  modify (add_call (cmd, value)) ;;
  match subprocess_run w cmd value with
  | Completed returncode _ => if returncode =? 0 then ret true else ret false
  | TimeoutExpired => ret false
  | RaisedException _ => ret false
  end.

(** Lines 352-377. *)
Definition update_menu_text : M unit :=
  self <- gets (fun self => self) ;;
  let conservation_text :=
    if status_eqb (conservation_status self) CONSERVATION_ENABLED
    then "Enabled" else "Disabled" in
  let fnlock_text :=
    if status_eqb (fnlock_status self) FNLOCK_ENABLED
    then "Enabled" else "Disabled" in
  let kbd_text :=
    if status_eqb (kbd_led_status self) KBD_LED_OFF then "Off"
    else if status_eqb (kbd_led_status self) KBD_LED_MIN then "Min"
    else "Max" in
  modify (set_action_texts ("Conservation Mode: " ++ conservation_text)
                           ("FnLock: " ++ fnlock_text)
                           ("Keyboard LEDs: " ++ kbd_text)).

Definition newline : string := String "010"%char EmptyString.

(** Lines 379-392. *)
Definition update_tooltip : M unit :=
  self <- gets (fun self => self) ;;
  let conservation_text :=
    if status_eqb (conservation_status self) CONSERVATION_ENABLED
    then "On" else "Off" in
  let fnlock_text :=
    if status_eqb (fnlock_status self) FNLOCK_ENABLED
    then "On" else "Off" in
  let kbd_text :=
    if status_eqb (kbd_led_status self) KBD_LED_OFF then "Off"
    else if status_eqb (kbd_led_status self) KBD_LED_MIN then "Min"
    else "Max" in
  modify (set_toolTip ("Lenovo Control" ++ newline
                       ++ "Conservation: " ++ conservation_text ++ newline
                       ++ "FnLock: " ++ fnlock_text ++ newline
                       ++ "KBD LEDs: " ++ kbd_text)).

(** Lines 458-461. *)
Definition show_notification (w : World) (title message : string) : M unit :=
  if supportsMessages w then modify (add_notification (title, message))
  else ret tt.

(** Lines 319-345. *)
Definition read_initial_status (w : World) : M unit :=
  conservation_val <- read_file_value w conservation_file ;;
  match conservation_val with
  | Some conservation_val =>
      modify (set_conservation_status
                (if String.eqb conservation_val "1"
                 then CONSERVATION_ENABLED else CONSERVATION_DISABLED))
  | None => ret tt
  end ;;
  fnlock_val <- read_file_value w fnlock_file ;;
  match fnlock_val with
  | Some fnlock_val =>
      modify (set_fnlock_status
                (if String.eqb fnlock_val "1"
                 then FNLOCK_ENABLED else FNLOCK_DISABLED))
  | None => ret tt
  end ;;
  kbd_led_val <- read_file_value w kbd_led_file ;;
  match kbd_led_val with
  | Some kbd_led_val =>
      try_except
        (led_level <- int w kbd_led_val ;;
         if led_level =? 0 then modify (set_kbd_led_status KBD_LED_OFF)
         else if led_level =? 1 then modify (set_kbd_led_status KBD_LED_MIN)
         else modify (set_kbd_led_status KBD_LED_MAX))
        [ValueError]
        (fun _ => modify (set_kbd_led_status KBD_LED_OFF))
  | None => ret tt
  end ;;
  update_menu_text.

(** Lines 347-350. *)
Definition update_status (w : World) : M unit :=
  read_initial_status w ;;
  update_tooltip.

(** Lines 394-410. *)
Definition toggle_conservation_mode (w : World) : M unit :=
  status <- gets conservation_status ;;
  new_value <-
    (if status_eqb status CONSERVATION_ENABLED
     then modify (set_conservation_status CONSERVATION_DISABLED) ;; ret "0"
     else modify (set_conservation_status CONSERVATION_ENABLED) ;; ret "1") ;;
  written <- write_file_value w conservation_file new_value ;;
  if written : bool then
    update_menu_text ;;
    update_tooltip ;;
    show_notification w "Conservation Mode"
      (if String.eqb new_value "1" then "Enabled" else "Disabled")
  else
    modify (set_conservation_status
              (if String.eqb new_value "1"
               then CONSERVATION_DISABLED else CONSERVATION_ENABLED)).

(** Lines 412-428. *)
Definition toggle_fnlock (w : World) : M unit :=
  status <- gets fnlock_status ;;
  new_value <-
    (if status_eqb status FNLOCK_ENABLED
     then modify (set_fnlock_status FNLOCK_DISABLED) ;; ret "0"
     else modify (set_fnlock_status FNLOCK_ENABLED) ;; ret "1") ;;
  written <- write_file_value w fnlock_file new_value ;;
  if written : bool then
    update_menu_text ;;
    update_tooltip ;;
    show_notification w "FnLock"
      (if String.eqb new_value "1" then "Enabled" else "Disabled")
  else
    modify (set_fnlock_status
              (if String.eqb new_value "1"
               then FNLOCK_DISABLED else FNLOCK_ENABLED)).

(** Lines 430-456. *)
Definition cycle_kbd_leds (w : World) : M unit :=
  status <- gets kbd_led_status ;;
  '(new_value, status_text) <-
    (if status_eqb status KBD_LED_OFF
     then modify (set_kbd_led_status KBD_LED_MIN) ;; ret ("1", "Min")
     else if status_eqb status KBD_LED_MIN
     then modify (set_kbd_led_status KBD_LED_MAX) ;; ret ("2", "Max")
     else modify (set_kbd_led_status KBD_LED_OFF) ;; ret ("0", "Off")) ;;
  written <- write_file_value w kbd_led_file new_value ;;
  if written : bool then
    update_menu_text ;;
    update_tooltip ;;
    show_notification w "Keyboard LEDs" status_text
  else
    if String.eqb new_value "1"
    then modify (set_kbd_led_status KBD_LED_OFF)
    else if String.eqb new_value "2"
    then modify (set_kbd_led_status KBD_LED_MIN)
    else modify (set_kbd_led_status KBD_LED_MAX).

(** Lines 251-268: the three menu entries as [create_context_menu] makes
    them. *)
Definition create_context_menu : M unit :=
  modify (set_action_texts "Conservation Mode: Loading..."
                           "FnLock: Loading..."
                           "Keyboard LEDs: Loading...").

(** Lines 59-80. *)
Definition init_ui : M unit :=
  create_context_menu ;;
  update_tooltip.

(** The object before [__init__] has assigned anything. *)
Definition blank : LenovoTrayApp :=
  {| conservation_status := CONSERVATION_DISABLED;
     fnlock_status := CONSERVATION_DISABLED;
     kbd_led_status := CONSERVATION_DISABLED;
     conservation_action := EmptyString; fnlock_action := EmptyString;
     kbd_led_action := EmptyString;
     toolTip := EmptyString; calls := []; notifications := [] |}.

(** [__init__], lines 36-57. *)
Definition init (w : World) : M unit :=
  modify (set_conservation_status CONSERVATION_DISABLED) ;;
  modify (set_fnlock_status FNLOCK_DISABLED) ;;
  modify (set_kbd_led_status KBD_LED_OFF) ;;
  init_ui ;;
  read_initial_status w.

(** ** The three settings and the signals of the event loop *)

Inductive Setting : Type := conservation | fnlock | kbd_led.

Definition cached (s : Setting) (self : LenovoTrayApp) : SettingStatus :=
  match s with
  | conservation => conservation_status self
  | fnlock => fnlock_status self
  | kbd_led => kbd_led_status self
  end.

Definition backing_file (s : Setting) : string :=
  match s with
  | conservation => conservation_file
  | fnlock => fnlock_file
  | kbd_led => kbd_led_file
  end.

(** The slot each menu entry is connected to (lines 257, 262, 267). *)
Definition triggered (s : Setting) (w : World) : M unit :=
  match s with
  | conservation => toggle_conservation_mode w
  | fnlock => toggle_fnlock w
  | kbd_led => cycle_kbd_leds w
  end.

(** A click on one of the three entries, on "Refresh Status" (line 276), or a
    tick of the 5 s timer (line 56). *)
Inductive Signal : Type :=
| Click (s : Setting)
| RefreshClick
| TimerTimeout.

Definition slot (sig : Signal) (w : World) : M unit :=
  match sig with
  | Click s => triggered s w
  | RefreshClick => update_status w
  | TimerTimeout => update_status w
  end.

(** The states of the object in any run: after [__init__], then after each
    signal, the environment answering as it likes each time. *)
Inductive reachable : LenovoTrayApp -> Prop :=
| reachable_init (w : World) : reachable (exec (init w) blank)
| reachable_slot (sig : Signal) (w : World) (self : LenovoTrayApp) :
    reachable self -> reachable (exec (slot sig w) self).

(** The values the code ever assigns to the two binary settings. *)
Definition binary (v : SettingStatus) : Prop :=
  v = CONSERVATION_DISABLED \/ v = CONSERVATION_ENABLED.

Definition cache_ok (self : LenovoTrayApp) : Prop :=
  binary (conservation_status self) /\ binary (fnlock_status self).

(** [write_file_value] returns [True] exactly on exit status 0. *)
Definition run_ok (r : RunResult) : bool :=
  match r with
  | Completed returncode _ => returncode =? 0
  | TimeoutExpired => false
  | RaisedException _ => false
  end.

(** The request [write_file_value(filepath, value)] sends. *)
Definition pkexec_tee (filepath value : string) : list string * string :=
  (["pkexec"; "tee"; filepath], value).

(** [read_file_value] absorbs what reading this path does: the text is
    returned, or the exception is one of the two it catches. *)
Definition absorbed (w : World) (filepath : string) : Prop :=
  match read_text w filepath with
  | Returns _ => True
  | Raises e => e = FileNotFoundError \/ e = PermissionError
  end.

(** ** Sample environments *)

Definition files (c f k : ReadResult) (filepath : string) : ReadResult :=
  if String.eqb filepath conservation_file then c
  else if String.eqb filepath fnlock_file then f
  else if String.eqb filepath kbd_led_file then k
  else Raises FileNotFoundError.

Definition world (c f k : ReadResult) (r : RunResult) : World :=
  {| read_text := files c f k;
     subprocess_run := fun _ _ => r;
     int_max_str_digits := 4300;
     supportsMessages := true |}.

Definition line (s : string) : string := s ++ newline.

Definition exit_0 : RunResult := Completed 0 EmptyString.

(** The three files read "1", "1" and "2"; the object built there. *)
Definition all_on : World :=
  world (Returns (line "1")) (Returns (line "1")) (Returns (line "2")) exit_0.
Definition started_all_on : LenovoTrayApp := exec (init all_on) blank.

(** The device directory has gone, or is no longer readable. *)
Definition files_gone : World :=
  world (Raises FileNotFoundError) (Raises FileNotFoundError)
        (Raises FileNotFoundError) exit_0.
Definition files_denied : World :=
  world (Raises PermissionError) (Raises PermissionError)
        (Raises PermissionError) exit_0.

(** The driver answers the read of the brightness with an I/O error, or with
    bytes that are no text; the first file is a directory. *)
Definition brightness_io_error : World :=
  world (Returns (line "0")) (Returns (line "0")) (Raises OSError) exit_0.
Definition brightness_not_text : World :=
  world (Returns (line "0")) (Returns (line "0")) (Raises UnicodeDecodeError)
        exit_0.
Definition conservation_is_directory : World :=
  world (Raises IsADirectoryError) (Returns (line "0")) (Returns (line "0"))
        exit_0.

(** The read of the second file fails with an I/O error. *)
Definition fnlock_io_error : World :=
  world (Returns (line "1")) (Raises OSError) (Returns (line "2")) exit_0.

(** The three files read "0", "0" and the given brightness. *)
Definition brightness (k : string) (r : RunResult) : World :=
  world (Returns (line "0")) (Returns (line "0")) (Returns (line k)) r.

(** ** Vocabulary of the statements *)

(** The values [__init__] gives the three cached settings (lines 47-49). *)
Definition default (s : Setting) : SettingStatus :=
  match s with
  | conservation => CONSERVATION_DISABLED
  | fnlock => FNLOCK_DISABLED
  | kbd_led => KBD_LED_OFF
  end.

(** Whether the latest request recorded in [after] succeeded, the environment
    answering as [w]: what [write_file_value] returned in the handler that
    has just led to [after]. *)
Definition wrote (w : World) (after : LenovoTrayApp) : bool :=
  match calls after with
  | (cmd, value) :: _ => run_ok (subprocess_run w cmd value)
  | [] => false
  end.

(** The menu entries show the cached values: [update_menu_text] would change
    nothing.  Likewise for the tooltip and [update_tooltip]. *)
Definition menu_shows_cache (self : LenovoTrayApp) : Prop :=
  exec update_menu_text self = self.

Definition tooltip_shows_cache (self : LenovoTrayApp) : Prop :=
  exec update_tooltip self = self.

(** The text of the menu entry of a setting. *)
Definition action_text (s : Setting) (self : LenovoTrayApp) : string :=
  match s with
  | conservation => conservation_action self
  | fnlock => fnlock_action self
  | kbd_led => kbd_led_action self
  end.


(** A request the three handlers can send: [pkexec tee] on the backing file
    of a setting, with "0" or "1" on standard input, or "2" for the
    keyboard. *)
Definition request_ok (c : list string * string) : Prop :=
  exists s value,
    c = pkexec_tee (backing_file s) value /\
    (value = "0" \/ value = "1" \/ (s = kbd_led /\ value = "2")).

(** Text made of white space only. *)
Fixpoint all_space (s : string) : bool :=
  match s with
  | EmptyString => true
  | String c s' => isspace c && all_space s'
  end.

(** The tooltip [init_ui] sets, from the three defaults. *)
Definition tooltip_all_off : string :=
  "Lenovo Control" ++ newline ++ "Conservation: Off" ++ newline
  ++ "FnLock: Off" ++ newline ++ "KBD LEDs: Off".

(** * Properties *)

(** ** The enumeration *)

Lemma SettingStatus_members :
  map member_of [CONSERVATION_DISABLED; CONSERVATION_ENABLED; KBD_LED_MAX]
  = Enum.members SettingStatus_body.
Proof. reflexivity. Qed.

Lemma SettingStatus_names :
  SettingStatus_attr "CONSERVATION_DISABLED" = Some CONSERVATION_DISABLED /\
  SettingStatus_attr "CONSERVATION_ENABLED" = Some CONSERVATION_ENABLED /\
  SettingStatus_attr "FNLOCK_DISABLED" = Some FNLOCK_DISABLED /\
  SettingStatus_attr "FNLOCK_ENABLED" = Some FNLOCK_ENABLED /\
  SettingStatus_attr "KBD_LED_OFF" = Some KBD_LED_OFF /\
  SettingStatus_attr "KBD_LED_MIN" = Some KBD_LED_MIN /\
  SettingStatus_attr "KBD_LED_MAX" = Some KBD_LED_MAX.
Proof. repeat split; reflexivity. Qed.

Lemma status_eqb_eq (a b : SettingStatus) : status_eqb a b = true <-> a = b.
Proof. destruct a, b; simpl; split; congruence. Qed.

Lemma status_eqb_refl (a : SettingStatus) : status_eqb a a = true.
Proof. now apply status_eqb_eq. Qed.

(** ** Text *)

Lemma isspace_of_int_isspace (c : ascii) :
  int_isspace c = true -> isspace c = true.
Proof.
  unfold int_isspace, isspace.
  generalize (nat_of_ascii c); intros n H.
  repeat rewrite ?orb_true_iff, ?andb_true_iff, ?Nat.leb_le, ?Nat.eqb_eq in *.
  lia.
Qed.

Lemma lstrip_head (s : string) :
  match lstrip s with
  | EmptyString => True
  | String c _ => isspace c = false
  end.
Proof.
  induction s as [|c s IH]; simpl; [exact I|].
  destruct (isspace c) eqn:E; [exact IH | exact E].
Qed.

Lemma rstrip_head (s : string) :
  match s with
  | EmptyString => True
  | String c _ => isspace c = false
  end ->
  match rstrip s with
  | EmptyString => s = EmptyString
  | String c _ => isspace c = false
  end.
Proof.
  destruct s as [|c s]; simpl; [reflexivity|].
  intros Hc. rewrite Hc. destruct (rstrip s); exact Hc.
Qed.

(** The text [strip] returns has no white space at its start... *)
Lemma strip_head (s : string) :
  match strip s with
  | EmptyString => True
  | String c _ => isspace c = false
  end.
Proof.
  unfold strip. pose proof (rstrip_head (lstrip s) (lstrip_head s)) as H.
  destruct (rstrip (lstrip s)); [exact I | exact H].
Qed.

Lemma int_lskip_id (s : string) :
  match s with
  | EmptyString => True
  | String c _ => isspace c = false
  end -> int_lskip s = s.
Proof.
  destruct s as [|c s]; simpl; [reflexivity|].
  intros Hc. destruct (int_isspace c) eqn:E; [|reflexivity].
  apply isspace_of_int_isspace in E. congruence.
Qed.

(** ... nor at its end: [rstrip] leaves nothing that [int] would skip. *)
Lemma int_rskip_rstrip (s : string) : int_rskip (rstrip s) = rstrip s.
Proof.
  induction s as [|c s IH]; simpl; [reflexivity|].
  destruct (rstrip s) as [|c' r] eqn:E.
  - destruct (isspace c) eqn:Ec; simpl; [reflexivity|].
    destruct (int_isspace c) eqn:Ei; [|reflexivity].
    apply isspace_of_int_isspace in Ei. congruence.
  - change (int_rskip (String c (String c' r)))
      with (match int_rskip (String c' r) with
            | EmptyString =>
                if int_isspace c then EmptyString else String c EmptyString
            | r0 => String c r0
            end).
    rewrite IH. reflexivity.
Qed.

(** On what [strip] returns, [int] has no white space left to skip. *)
Lemma int_skip_strip (s : string) :
  int_rskip (int_lskip (strip s)) = strip s.
Proof.
  rewrite (int_lskip_id (strip s) (strip_head s)).
  apply int_rskip_rstrip.
Qed.

Lemma parse_int_7 (max_str_digits : nat) :
  parse_int max_str_digits "7" = Some 7.
Proof.
  unfold parse_int; simpl.
  destruct max_str_digits as [|[|n]]; reflexivity.
Qed.

Lemma parse_int_minus_1 (max_str_digits : nat) :
  parse_int max_str_digits "-1" = Some (-1).
Proof.
  unfold parse_int; simpl.
  destruct max_str_digits as [|[|n]]; reflexivity.
Qed.

(** ** Reading the backing files *)

Ltac unfold_methods :=
  unfold slot, triggered, init, init_ui, create_context_menu, update_status,
    read_initial_status, toggle_conservation_mode, toggle_fnlock,
    cycle_kbd_leds, read_file_value, open_read, try_except, int,
    update_menu_text, update_tooltip, show_notification, write_file_value,
    bind, ret, raise, gets, modify, exec, outcome.

Ltac case_read :=
  match goal with
  | H : read_text ?w ?p = _ |- context [read_text ?w ?p] => rewrite H; simpl
  | |- context [read_text ?w ?p] =>
      let E := fresh "E" in destruct (read_text w p) as [?|[]] eqn:E; simpl
  end.

Ltac case_int :=
  match goal with
  | H : parse_int ?a ?b = _ |- context [parse_int ?a ?b] => rewrite H; simpl
  | |- context [parse_int ?a ?b] =>
      let E := fresh "E" in
      destruct (parse_int a b) as [[|[| |]|]|] eqn:E; simpl
  end.

Ltac absurd_read :=
  match goal with
  | H : _ = FileNotFoundError \/ _ = PermissionError |- _ =>
      destruct H; discriminate
  | H : absorbed _ _ |- _ => unfold absorbed in H
  | H : read_text ?w ?p = _, H' : context [read_text ?w ?p] |- _ =>
      rewrite H in H'
  end.

Section Refresh.

Variable w : World.
Variable self : LenovoTrayApp.

Lemma read_file_value_returns (filepath text : string) :
  read_text w filepath = Returns text ->
  read_file_value w filepath self = (inr (Some (strip text)), self).
Proof. intros H. unfold_methods. rewrite H. reflexivity. Qed.

Lemma read_file_value_absorbs (filepath : string) (e : PyExc) :
  read_text w filepath = Raises e ->
  e = FileNotFoundError \/ e = PermissionError ->
  read_file_value w filepath self = (inr None, self).
Proof.
  intros H [-> | ->]; unfold_methods; rewrite H; reflexivity.
Qed.

Lemma read_file_value_escapes (filepath : string) (e : PyExc) :
  read_text w filepath = Raises e ->
  e <> FileNotFoundError -> e <> PermissionError ->
  read_file_value w filepath self = (inl e, self).
Proof.
  intros H H1 H2. unfold_methods. rewrite H.
  destruct e; try reflexivity; congruence.
Qed.

(** [read_file_value] never assigns to [self]. *)
Lemma read_file_value_pure (filepath : string) :
  exec (read_file_value w filepath) self = self.
Proof.
  unfold_methods. destruct (read_text w filepath) as [?|[]]; reflexivity.
Qed.

Lemma update_status_returns :
  absorbed w conservation_file -> absorbed w fnlock_file ->
  absorbed w kbd_led_file ->
  outcome (update_status w) self = inr tt.
Proof.
  intros Hc Hf Hk. unfold_methods.
  repeat case_read; repeat absurd_read; try reflexivity.
  all: case_int; reflexivity.
Qed.

Lemma update_status_raises (p : string) (e : PyExc) :
  p = conservation_file \/ p = fnlock_file \/ p = kbd_led_file ->
  read_text w p = Raises e ->
  e <> FileNotFoundError -> e <> PermissionError ->
  exists e', outcome (update_status w) self = inl e'.
Proof.
  intros Hp H H1 H2. unfold_methods.
  destruct e; try congruence;
    destruct Hp as [-> | [-> | ->]]; repeat case_read;
    try (eexists; reflexivity); try discriminate.
Qed.

(** A read that raises leaves the cached value of its setting. *)
Lemma failed_read_keeps (s : Setting) (e : PyExc) :
  read_text w (backing_file s) = Raises e ->
  cached s (exec (update_status w) self) = cached s self.
Proof.
  intros H. unfold_methods.
  destruct e, s; simpl in H; repeat case_read; try reflexivity.
  all: case_int; reflexivity.
Qed.

Lemma conservation_read (text : string) :
  read_text w conservation_file = Returns text ->
  conservation_status (exec (update_status w) self)
  = if String.eqb (strip text) "1"
    then CONSERVATION_ENABLED else CONSERVATION_DISABLED.
Proof.
  intros H. unfold_methods.
  repeat case_read; try reflexivity.
  all: try (case_int; reflexivity).
Qed.

Lemma fnlock_read (text : string) :
  absorbed w conservation_file ->
  read_text w fnlock_file = Returns text ->
  fnlock_status (exec (update_status w) self)
  = if String.eqb (strip text) "1"
    then FNLOCK_ENABLED else FNLOCK_DISABLED.
Proof.
  intros Hc H. unfold_methods.
  repeat case_read; repeat absurd_read; try reflexivity.
  all: try (case_int; reflexivity).
Qed.

Lemma kbd_led_read (text : string) :
  absorbed w conservation_file -> absorbed w fnlock_file ->
  read_text w kbd_led_file = Returns text ->
  kbd_led_status (exec (update_status w) self)
  = match parse_int (int_max_str_digits w) (strip text) with
    | Some 0 => KBD_LED_OFF
    | Some 1 => KBD_LED_MIN
    | Some _ => KBD_LED_MAX
    | None => KBD_LED_OFF
    end.
Proof.
  intros Hc Hf H. unfold_methods.
  repeat case_read; repeat absurd_read; try reflexivity.
  all: case_int; reflexivity.
Qed.

End Refresh.

(** ** The handlers *)

Ltac case_run :=
  match goal with
  | H : subprocess_run ?w ?c ?v = _ |- context [subprocess_run ?w ?c ?v] =>
      rewrite H; simpl
  | |- context [subprocess_run ?w ?c ?v] =>
      let E := fresh "E" in
      destruct (subprocess_run w c v) as [[| |] ?| |] eqn:E; simpl
  | |- context [supportsMessages ?w] => destruct (supportsMessages w); simpl
  end.

(** The three ways a write fails. *)
Lemma run_ok_false (r : RunResult) :
  run_ok r = false <->
  (exists returncode stderr, r = Completed returncode stderr /\ returncode <> 0)
  \/ r = TimeoutExpired \/ (exists message, r = RaisedException message).
Proof.
  split.
  - destruct r as [rc err | | msg]; simpl; intros H.
    + left. exists rc, err. split; [reflexivity|]. now apply Z.eqb_neq.
    + right; left; reflexivity.
    + right; right; now exists msg.
  - intros [(rc & err & -> & Hrc) | [-> | [msg ->]]]; simpl;
      [now apply Z.eqb_neq | reflexivity | reflexivity].
Qed.

Lemma write_file_value_wrote (w : World) (filepath value : string)
      (self : LenovoTrayApp) :
  write_file_value w filepath value self
  = (inr (wrote w (add_call (pkexec_tee filepath value) self)),
     add_call (pkexec_tee filepath value) self).
Proof.
  unfold_methods. unfold wrote, pkexec_tee. simpl.
  repeat case_run; reflexivity.
Qed.

Lemma handler_returns (s : Setting) (w : World) (self : LenovoTrayApp) :
  outcome (triggered s w) self = inr tt.
Proof.
  unfold_methods.
  destruct s, self as [c f k ? ? ? ? ? ?]; simpl;
    [destruct c | destruct f | destruct k]; simpl;
    repeat case_run; reflexivity.
Qed.

(** A handler sends exactly one request. *)
Lemma handler_calls (s : Setting) (w : World) (self : LenovoTrayApp) :
  exists value,
    calls (exec (triggered s w) self)
    = pkexec_tee (backing_file s) value :: calls self.
Proof.
  unfold_methods. unfold pkexec_tee.
  destruct s, self as [c f k ? ? ? ? ? ?]; simpl;
    [destruct c | destruct f | destruct k]; simpl;
    repeat case_run; eexists; reflexivity.
Qed.

Lemma handler_frame (s s' : Setting) (w : World) (self : LenovoTrayApp) :
  s <> s' -> cached s' (exec (triggered s w) self) = cached s' self.
Proof.
  intros Hne. unfold_methods.
  destruct s, s'; try congruence;
    destruct self as [c f k ? ? ? ? ? ?]; simpl.
  all: try (destruct c; simpl; repeat case_run; reflexivity).
  all: try (destruct f; simpl; repeat case_run; reflexivity).
  all: destruct k; simpl; repeat case_run; reflexivity.
Qed.

(** ** What the cache can hold *)

Lemma binary_cases (b : bool) :
  binary (if b then CONSERVATION_ENABLED else CONSERVATION_DISABLED).
Proof. destruct b; [right | left]; reflexivity. Qed.

Lemma init_cache_ok (w : World) : cache_ok (exec (init w) blank).
Proof.
  unfold cache_ok, binary. unfold_methods. simpl.
  repeat case_read.
  all: try case_int.
  all: repeat match goal with
         | |- context [String.eqb ?a "1"] => destruct (String.eqb a "1")
         end; simpl; auto.
Qed.

Lemma update_status_cache_ok (w : World) (self : LenovoTrayApp) :
  cache_ok self -> cache_ok (exec (update_status w) self).
Proof.
  unfold cache_ok, binary. intros [Hc Hf]. unfold_methods.
  repeat case_read.
  all: try case_int.
  all: repeat match goal with
         | |- context [String.eqb ?a "1"] => destruct (String.eqb a "1")
         end; simpl; auto.
Qed.

Lemma handler_cache_ok (s : Setting) (w : World) (self : LenovoTrayApp) :
  cache_ok self -> cache_ok (exec (triggered s w) self).
Proof.
  unfold cache_ok, binary. intros [Hc Hf]. unfold_methods.
  destruct s, self as [c f k ? ? ? ? ? ?]; simpl in *;
    [destruct c | destruct f | destruct k]; simpl;
    repeat case_run; auto.
Qed.

(** In every run the two binary settings hold one of their two values. *)
Lemma reachable_cache_ok (self : LenovoTrayApp) :
  reachable self -> cache_ok self.
Proof.
  induction 1 as [w | sig w self _ IH].
  - apply init_cache_ok.
  - destruct sig; simpl.
    + now apply handler_cache_ok.
    + now apply update_status_cache_ok.
    + now apply update_status_cache_ok.
Qed.

Lemma toggle_conservation_success (w : World) (self : LenovoTrayApp) :
  wrote w (exec (toggle_conservation_mode w) self) = true ->
  conservation_status (exec (toggle_conservation_mode w) self)
  = if status_eqb (conservation_status self) CONSERVATION_ENABLED
    then CONSERVATION_DISABLED else CONSERVATION_ENABLED.
Proof.
  unfold wrote. unfold_methods.
  destruct self as [c f k ? ? ? ? ? ?]; simpl; destruct c; simpl;
    repeat case_run; intros; try reflexivity; discriminate.
Qed.

Lemma toggle_fnlock_success (w : World) (self : LenovoTrayApp) :
  wrote w (exec (toggle_fnlock w) self) = true ->
  fnlock_status (exec (toggle_fnlock w) self)
  = if status_eqb (fnlock_status self) FNLOCK_ENABLED
    then FNLOCK_DISABLED else FNLOCK_ENABLED.
Proof.
  unfold wrote. unfold_methods.
  destruct self as [c f k ? ? ? ? ? ?]; simpl; destruct f; simpl;
    repeat case_run; intros; try reflexivity; discriminate.
Qed.

Lemma cycle_kbd_leds_success (w : World) (self : LenovoTrayApp) :
  wrote w (exec (cycle_kbd_leds w) self) = true ->
  kbd_led_status (exec (cycle_kbd_leds w) self)
  = if status_eqb (kbd_led_status self) KBD_LED_OFF then KBD_LED_MIN
    else if status_eqb (kbd_led_status self) KBD_LED_MIN then KBD_LED_MAX
    else KBD_LED_OFF.
Proof.
  unfold wrote. unfold_methods.
  destruct self as [c f k ? ? ? ? ? ?]; simpl; destruct k; simpl;
    repeat case_run; intros; try reflexivity; discriminate.
Qed.

(** The request each handler sends, from each cached value. *)
Lemma toggle_conservation_request (w : World) (self : LenovoTrayApp) :
  calls (exec (toggle_conservation_mode w) self)
  = pkexec_tee conservation_file
      (if status_eqb (conservation_status self) CONSERVATION_ENABLED
       then "0" else "1") :: calls self.
Proof.
  unfold_methods. unfold pkexec_tee.
  destruct self as [c f k ? ? ? ? ? ?]; simpl; destruct c; simpl;
    repeat case_run; reflexivity.
Qed.

Lemma toggle_fnlock_request (w : World) (self : LenovoTrayApp) :
  calls (exec (toggle_fnlock w) self)
  = pkexec_tee fnlock_file
      (if status_eqb (fnlock_status self) FNLOCK_ENABLED
       then "0" else "1") :: calls self.
Proof.
  unfold_methods. unfold pkexec_tee.
  destruct self as [c f k ? ? ? ? ? ?]; simpl; destruct f; simpl;
    repeat case_run; reflexivity.
Qed.

Lemma cycle_kbd_leds_request (w : World) (self : LenovoTrayApp) :
  calls (exec (cycle_kbd_leds w) self)
  = pkexec_tee kbd_led_file
      (if status_eqb (kbd_led_status self) KBD_LED_OFF then "1"
       else if status_eqb (kbd_led_status self) KBD_LED_MIN then "2"
       else "0") :: calls self.
Proof.
  unfold_methods. unfold pkexec_tee.
  destruct self as [c f k ? ? ? ? ? ?]; simpl; destruct k; simpl;
    repeat case_run; reflexivity.
Qed.

(** The answer to the request just recorded is the answer [wrote] looks up. *)
Lemma wrote_request (w : World) (filepath value : string)
      (after : LenovoTrayApp) (rest : list (list string * string)) :
  calls after = pkexec_tee filepath value :: rest ->
  wrote w after = run_ok (subprocess_run w ["pkexec"; "tee"; filepath] value).
Proof. unfold wrote, pkexec_tee. intros ->. reflexivity. Qed.

Lemma init_failed_read (w : World) (s : Setting) (e : PyExc) :
  read_text w (backing_file s) = Raises e ->
  cached s (exec (init w) blank) = default s.
Proof.
  intros H. unfold_methods.
  destruct e, s; simpl in H; repeat case_read; try reflexivity.
  all: case_int; reflexivity.
Qed.

(** [update_tooltip] assigns to no cached setting. *)
Lemma update_status_cached (w : World) (self : LenovoTrayApp) (s : Setting) :
  cached s (exec (update_status w) self)
  = cached s (exec (read_initial_status w) self).
Proof.
  unfold update_status, update_tooltip, exec, bind, gets, modify.
  destruct (read_initial_status w self) as [[e|[]] self']; destruct s;
    reflexivity.
Qed.

Lemma absorbed_of_returns (w : World) (self : LenovoTrayApp) :
  outcome (update_status w) self = inr tt ->
  forall p, p = conservation_file \/ p = fnlock_file \/ p = kbd_led_file ->
  absorbed w p.
Proof.
  intros Hret p Hp. unfold absorbed.
  destruct (read_text w p) as [text | e] eqn:E; [exact I|].
  destruct e; auto.
  all: destruct (update_status_raises w self p _ Hp E) as [e' He'];
    congruence.
Qed.


(** * The properties of the specification *)

(** C1.  Revert law.  For each of the three settings and each value [v] the
    cache can hold for it, when the privileged write of the toggle or cycle
    handler fails (exit status other than 0, timeout or exception: the
    request just sent is answered with a failure), the cached value of the
    setting after the handler equals [v]. *)
Theorem failed_write_reverts (s : Setting) (w : World) (self : LenovoTrayApp) :
  cache_ok self ->
  wrote w (exec (triggered s w) self) = false ->
  cached s (exec (triggered s w) self) = cached s self.
Proof.
  unfold cache_ok, binary, wrote. unfold_methods.
  destruct s, self as [c f k ? ? ? ? ? ?]; simpl;
    intros [[Hc | Hc] [Hf | Hf]]; subst; simpl.
  all: try (repeat case_run; intros; try reflexivity; discriminate).
  all: destruct k; simpl;
    repeat case_run; intros; try reflexivity; discriminate.
Qed.

(** Scenario C of the specification: (Disabled, Disabled, Min), and the
    write of the cycle times out. *)
Lemma failed_write_reverts_witness :
  cache_ok (exec (init (brightness "1" TimeoutExpired)) blank) /\
  wrote (brightness "1" TimeoutExpired)
        (exec (triggered kbd_led (brightness "1" TimeoutExpired))
              (exec (init (brightness "1" TimeoutExpired)) blank)) = false /\
  cached kbd_led
         (exec (triggered kbd_led (brightness "1" TimeoutExpired))
               (exec (init (brightness "1" TimeoutExpired)) blank))
  = KBD_LED_MIN.
Proof.
  assert (H1 : cache_ok (exec (init (brightness "1" TimeoutExpired)) blank))
    by (split; left; reflexivity).
  split; [exact H1|]. split; [reflexivity|].
  exact (failed_write_reverts kbd_led (brightness "1" TimeoutExpired)
           _ H1 eq_refl).
Defined.

(** C2, as the code has it.  A refresh assigns the cached value of a setting
    only when the read of its backing file returned text: the new value then
    depends on that text alone, not on the value cached before.  When the
    read fails, the cached value is left as it was; it is the default only
    in [__init__], where the value it is left at is the default. *)
Theorem refresh_assigns_what_it_read (w : World) (s : Setting) :
  (forall self e,
      read_text w (backing_file s) = Raises e ->
      cached s (exec (update_status w) self) = cached s self) /\
  (absorbed w conservation_file -> absorbed w fnlock_file ->
   forall self self' text,
     read_text w (backing_file s) = Returns text ->
     cached s (exec (update_status w) self)
     = cached s (exec (update_status w) self')) /\
  (forall e,
      read_text w (backing_file s) = Raises e ->
      cached s (exec (init w) blank) = default s).
Proof.
  split; [|split].
  - intros self e H. exact (failed_read_keeps w self s e H).
  - intros Hc Hf self self' text H. destruct s; simpl in *.
    + now rewrite !(conservation_read w _ text H).
    + now rewrite !(fnlock_read w _ text Hc H).
    + now rewrite !(kbd_led_read w _ text Hc Hf H).
  - intros e H. exact (init_failed_read w s e H).
Qed.

Lemma refresh_assigns_what_it_read_witness :
  cached fnlock (exec (update_status files_gone) started_all_on)
  = cached fnlock started_all_on /\
  cached kbd_led (exec (update_status all_on) blank)
  = cached kbd_led (exec (update_status all_on) started_all_on) /\
  cached conservation (exec (init files_gone) blank) = CONSERVATION_DISABLED.
Proof.
  destruct (refresh_assigns_what_it_read files_gone fnlock) as (H1 & _ & _).
  destruct (refresh_assigns_what_it_read all_on kbd_led) as (_ & H2 & _).
  destruct (refresh_assigns_what_it_read files_gone conservation)
    as (_ & _ & H3).
  split; [exact (H1 started_all_on FileNotFoundError eq_refl)|].
  split; [exact (H2 I I blank started_all_on (line "2") eq_refl)|].
  exact (H3 FileNotFoundError eq_refl).
Defined.

(** C2 as stated fails: conservation mode is cached as enabled, the backing
    files disappear, and the refresh completes with the cache still enabled,
    equal to the value cached before and different from the default. *)
Lemma refresh_keeps_cache_when_file_is_gone :
  conservation_status started_all_on = CONSERVATION_ENABLED /\
  read_text files_gone conservation_file = Raises FileNotFoundError /\
  outcome (update_status files_gone) started_all_on = inr tt /\
  conservation_status (exec (update_status files_gone) started_all_on)
  = conservation_status started_all_on /\
  conservation_status (exec (update_status files_gone) started_all_on)
  <> default conservation.
Proof. repeat split; try reflexivity. discriminate. Qed.

(** Exactly the reads that [read_file_value] absorbs let a refresh return. *)
Lemma update_status_returns_iff (w : World) (self : LenovoTrayApp) :
  outcome (update_status w) self = inr tt <->
  absorbed w conservation_file /\ absorbed w fnlock_file /\
  absorbed w kbd_led_file.
Proof.
  split.
  - intros H. repeat split; apply (absorbed_of_returns w self H); auto.
  - intros (Hc & Hf & Hk). now apply update_status_returns.
Qed.

(** C3, as the code has it.  A refresh returns normally whenever each of the
    three reads either returns text (whatever the text, malformed or not) or
    raises [FileNotFoundError] or [PermissionError]: such a failure is not
    passed on to the caller, and it leaves the cached value of its setting
    as it was. *)
Theorem update_status_absorbs_read_failures (w : World) (self : LenovoTrayApp) :
  absorbed w conservation_file -> absorbed w fnlock_file ->
  absorbed w kbd_led_file ->
  outcome (update_status w) self = inr tt /\
  (forall s e,
      read_text w (backing_file s) = Raises e ->
      cached s (exec (update_status w) self) = cached s self).
Proof.
  intros Hc Hf Hk. split.
  - now apply update_status_returns.
  - intros s e H. exact (failed_read_keeps w self s e H).
Qed.

Lemma update_status_absorbs_read_failures_witness :
  absorbed files_denied conservation_file /\
  absorbed files_denied fnlock_file /\
  absorbed files_denied kbd_led_file /\
  outcome (update_status files_denied) started_all_on = inr tt /\
  cached kbd_led (exec (update_status files_denied) started_all_on)
  = KBD_LED_MAX.
Proof.
  assert (Hc : absorbed files_denied conservation_file)
    by (right; reflexivity).
  assert (Hf : absorbed files_denied fnlock_file) by (right; reflexivity).
  assert (Hk : absorbed files_denied kbd_led_file) by (right; reflexivity).
  destruct (update_status_absorbs_read_failures files_denied started_all_on
              Hc Hf Hk) as [H1 H2].
  split; [exact Hc|]. split; [exact Hf|]. split; [exact Hk|].
  split; [exact H1|].
  exact (H2 kbd_led PermissionError eq_refl).
Defined.

(** C3 as stated fails: when the read of the brightness raises an [OSError]
    (an I/O error of the driver) or a [UnicodeDecodeError] (malformed
    content), or the first path is a directory, the exception leaves
    [update_status]. *)
Lemma update_status_raises_to_caller :
  outcome (update_status brightness_io_error) started_all_on = inl OSError /\
  outcome (update_status brightness_not_text) started_all_on
  = inl UnicodeDecodeError /\
  outcome (update_status conservation_is_directory) started_all_on
  = inl IsADirectoryError.
Proof. repeat split; reflexivity. Qed.

(** C4, as the code has it.  When the conservation or fnlock file is read,
    the cached value becomes Enabled if and only if the stripped text is "1",
    and Disabled otherwise.  When the read fails, the cached value is left as
    it was (Disabled only if it was Disabled). *)
Theorem binary_settings_parse (w : World) (self : LenovoTrayApp) :
  (forall text,
      read_text w conservation_file = Returns text ->
      (conservation_status (exec (update_status w) self)
       = CONSERVATION_ENABLED <-> strip text = "1") /\
      (strip text <> "1" ->
       conservation_status (exec (update_status w) self)
       = CONSERVATION_DISABLED)) /\
  (absorbed w conservation_file ->
   forall text,
     read_text w fnlock_file = Returns text ->
     (fnlock_status (exec (update_status w) self) = FNLOCK_ENABLED
      <-> strip text = "1") /\
     (strip text <> "1" ->
      fnlock_status (exec (update_status w) self) = FNLOCK_DISABLED)) /\
  (forall e,
      read_text w conservation_file = Raises e ->
      conservation_status (exec (update_status w) self)
      = conservation_status self) /\
  (forall e,
      read_text w fnlock_file = Raises e ->
      fnlock_status (exec (update_status w) self) = fnlock_status self).
Proof.
  split; [|split; [|split]].
  - intros text H. rewrite (conservation_read w self text H).
    destruct (String.eqb_spec (strip text) "1") as [E | E].
    + split; [split; auto | congruence].
    + split; [split; [discriminate | congruence] | reflexivity].
  - intros Hc text H. rewrite (fnlock_read w self text Hc H).
    destruct (String.eqb_spec (strip text) "1") as [E | E].
    + split; [split; auto | congruence].
    + split; [split; [discriminate | congruence] | reflexivity].
  - intros e H. exact (failed_read_keeps w self conservation e H).
  - intros e H. exact (failed_read_keeps w self fnlock e H).
Qed.

Lemma binary_settings_parse_witness :
  conservation_status (exec (update_status all_on) blank)
  = CONSERVATION_ENABLED /\
  fnlock_status (exec (update_status (brightness "0" exit_0)) started_all_on)
  = FNLOCK_DISABLED /\
  fnlock_status (exec (update_status files_denied) started_all_on)
  = FNLOCK_ENABLED.
Proof.
  destruct (binary_settings_parse all_on blank) as (H1 & _).
  destruct (binary_settings_parse (brightness "0" exit_0) started_all_on)
    as (_ & H2 & _).
  destruct (binary_settings_parse files_denied started_all_on)
    as (_ & _ & _ & H4).
  split; [apply (H1 (line "1") eq_refl); reflexivity|].
  split; [apply (H2 I (line "0") eq_refl); discriminate|].
  exact (H4 PermissionError eq_refl).
Defined.

(** C4 as stated fails on the unreadable file: FnLock is cached as enabled,
    its file can no longer be opened ([PermissionError]), and after the
    refresh the cached value is Enabled, not Disabled. *)
Lemma unreadable_file_is_not_disabled :
  read_text files_denied fnlock_file = Raises PermissionError /\
  outcome (update_status files_denied) started_all_on = inr tt /\
  fnlock_status (exec (update_status files_denied) started_all_on)
  = FNLOCK_ENABLED /\
  FNLOCK_ENABLED <> FNLOCK_DISABLED.
Proof. repeat split; try reflexivity. discriminate. Qed.

(** C5.  When the brightness file is read (and the two reads before it did
    not stop the refresh), the cached keyboard level follows the integer the
    stripped text parses to: 0 gives Off, 1 gives Min, every integer from 2
    on gives Max, and text that is no integer gives Off.  In particular a
    file that contains "7" gives Max. *)
Theorem kbd_led_levels (w : World) (self : LenovoTrayApp) (text : string) :
  absorbed w conservation_file -> absorbed w fnlock_file ->
  read_text w kbd_led_file = Returns text ->
  let led_level := parse_int (int_max_str_digits w) (strip text) in
  let after := kbd_led_status (exec (update_status w) self) in
  (led_level = Some 0 -> after = KBD_LED_OFF) /\
  (led_level = Some 1 -> after = KBD_LED_MIN) /\
  (forall n, 2 <= n -> led_level = Some n -> after = KBD_LED_MAX) /\
  (led_level = None -> after = KBD_LED_OFF) /\
  (strip text = "7" -> after = KBD_LED_MAX).
Proof.
  intros Hc Hf H led_level after.
  assert (E : after = match led_level with
                      | Some 0 => KBD_LED_OFF
                      | Some 1 => KBD_LED_MIN
                      | Some _ => KBD_LED_MAX
                      | None => KBD_LED_OFF
                      end) by exact (kbd_led_read w self text Hc Hf H).
  repeat split.
  - intros L. now rewrite E, L.
  - intros L. now rewrite E, L.
  - intros n Hn L. rewrite E, L. destruct n as [|[| |]|]; try lia; reflexivity.
  - intros L. now rewrite E, L.
  - intros L. rewrite E. unfold led_level. rewrite L, parse_int_7. reflexivity.
Qed.

(** Scenario D of the specification. *)
Lemma kbd_led_levels_witness :
  absorbed (brightness "7" exit_0) conservation_file /\
  absorbed (brightness "7" exit_0) fnlock_file /\
  read_text (brightness "7" exit_0) kbd_led_file = Returns (line "7") /\
  kbd_led_status (exec (update_status (brightness "7" exit_0)) blank)
  = KBD_LED_MAX.
Proof.
  split; [exact I|]. split; [exact I|]. split; [reflexivity|].
  destruct (kbd_led_levels (brightness "7" exit_0) blank (line "7")
              I I eq_refl) as (_ & _ & _ & _ & H).
  exact (H eq_refl).
Defined.

(** C6.  The cycle handler advances Off, Min, Max, Off: from Off it asks to
    write "1" and, when that write succeeds, the cache holds Min; from Min it
    asks "2" and then holds Max; from Max it asks "0" and then holds Off.
    Three cycles in a row whose writes all succeed bring the cached level
    back to where it started. *)
Theorem cycle_kbd_leds_cycles (w w2 w3 : World) (self : LenovoTrayApp) :
  let request value := pkexec_tee kbd_led_file value :: calls self in
  let ok value :=
    run_ok (subprocess_run w ["pkexec"; "tee"; kbd_led_file] value) = true in
  let after := exec (cycle_kbd_leds w) self in
  let after2 := exec (cycle_kbd_leds w2) after in
  let after3 := exec (cycle_kbd_leds w3) after2 in
  (kbd_led_status self = KBD_LED_OFF ->
   calls after = request "1" /\ (ok "1" -> kbd_led_status after = KBD_LED_MIN))
  /\
  (kbd_led_status self = KBD_LED_MIN ->
   calls after = request "2" /\ (ok "2" -> kbd_led_status after = KBD_LED_MAX))
  /\
  (kbd_led_status self = KBD_LED_MAX ->
   calls after = request "0" /\ (ok "0" -> kbd_led_status after = KBD_LED_OFF))
  /\
  (wrote w after = true -> wrote w2 after2 = true ->
   wrote w3 after3 = true ->
   kbd_led_status after3 = kbd_led_status self).
Proof.
  intros request ok after after2 after3.
  pose proof (cycle_kbd_leds_request w self) as Hreq.
  pose proof (cycle_kbd_leds_success w self) as Hok.
  fold after in Hreq, Hok.
  assert (step : forall v value,
             kbd_led_status self = v ->
             (if status_eqb v KBD_LED_OFF then "1"
              else if status_eqb v KBD_LED_MIN then "2" else "0") = value ->
             calls after = request value /\
             (ok value ->
              kbd_led_status after
              = if status_eqb v KBD_LED_OFF then KBD_LED_MIN
                else if status_eqb v KBD_LED_MIN then KBD_LED_MAX
                else KBD_LED_OFF)).
  { intros v value Hv Hvalue. rewrite Hv, Hvalue in Hreq. rewrite Hv in Hok.
    split; [exact Hreq|]. intros Hrun. apply Hok.
    rewrite (wrote_request w _ _ _ _ Hreq). exact Hrun. }
  split; [|split; [|split]].
  - intros Hv. exact (step _ "1" Hv eq_refl).
  - intros Hv. exact (step _ "2" Hv eq_refl).
  - intros Hv. exact (step _ "0" Hv eq_refl).
  - intros H1 H2 H3. unfold after3.
    rewrite (cycle_kbd_leds_success w3 after2 H3). unfold after2.
    rewrite (cycle_kbd_leds_success w2 after H2). unfold after.
    rewrite (cycle_kbd_leds_success w self H1).
    destruct (kbd_led_status self); reflexivity.
Qed.

Lemma cycle_kbd_leds_cycles_witness :
  calls (exec (cycle_kbd_leds all_on) blank)
  = [pkexec_tee kbd_led_file "1"] /\
  kbd_led_status (exec (cycle_kbd_leds all_on) blank) = KBD_LED_MIN /\
  kbd_led_status
    (exec (cycle_kbd_leds all_on)
          (exec (cycle_kbd_leds all_on)
                (exec (cycle_kbd_leds all_on) started_all_on)))
  = KBD_LED_MAX.
Proof.
  destruct (cycle_kbd_leds_cycles all_on all_on all_on blank)
    as (H1 & _ & _ & _).
  destruct (cycle_kbd_leds_cycles all_on all_on all_on started_all_on)
    as (_ & _ & _ & H4).
  destruct (H1 eq_refl) as [Hcalls Hmin].
  split; [exact Hcalls|]. split; [exact (Hmin eq_refl)|].
  exact (H4 eq_refl eq_refl eq_refl).
Defined.

(** C7.  From a cached Disabled the conservation handler asks to write "1"
    to the conservation file and, when the write succeeds, the cache holds
    Enabled; from Enabled it asks "0" and then holds Disabled.  The fnlock
    handler does the same against the fnlock file. *)
Theorem toggle_requests (w : World) (self : LenovoTrayApp) :
  let ok filepath value :=
    run_ok (subprocess_run w ["pkexec"; "tee"; filepath] value) = true in
  let after_c := exec (toggle_conservation_mode w) self in
  let after_f := exec (toggle_fnlock w) self in
  (conservation_status self = CONSERVATION_DISABLED ->
   calls after_c = pkexec_tee conservation_file "1" :: calls self /\
   (ok conservation_file "1" ->
    conservation_status after_c = CONSERVATION_ENABLED)) /\
  (conservation_status self = CONSERVATION_ENABLED ->
   calls after_c = pkexec_tee conservation_file "0" :: calls self /\
   (ok conservation_file "0" ->
    conservation_status after_c = CONSERVATION_DISABLED)) /\
  (fnlock_status self = FNLOCK_DISABLED ->
   calls after_f = pkexec_tee fnlock_file "1" :: calls self /\
   (ok fnlock_file "1" -> fnlock_status after_f = FNLOCK_ENABLED)) /\
  (fnlock_status self = FNLOCK_ENABLED ->
   calls after_f = pkexec_tee fnlock_file "0" :: calls self /\
   (ok fnlock_file "0" -> fnlock_status after_f = FNLOCK_DISABLED)).
Proof.
  intros ok after_c after_f.
  pose proof (toggle_conservation_request w self) as Hc.
  pose proof (toggle_conservation_success w self) as Hc'.
  pose proof (toggle_fnlock_request w self) as Hf.
  pose proof (toggle_fnlock_success w self) as Hf'.
  fold after_c in Hc, Hc'. fold after_f in Hf, Hf'.
  split; [|split; [|split]]; intros Hv.
  - rewrite Hv in Hc, Hc'. split; [exact Hc|]. intros Hrun. apply Hc'.
    rewrite (wrote_request w _ _ _ _ Hc). exact Hrun.
  - rewrite Hv in Hc, Hc'. split; [exact Hc|]. intros Hrun. apply Hc'.
    rewrite (wrote_request w _ _ _ _ Hc). exact Hrun.
  - rewrite Hv in Hf, Hf'. split; [exact Hf|]. intros Hrun. apply Hf'.
    rewrite (wrote_request w _ _ _ _ Hf). exact Hrun.
  - rewrite Hv in Hf, Hf'. split; [exact Hf|]. intros Hrun. apply Hf'.
    rewrite (wrote_request w _ _ _ _ Hf). exact Hrun.
Qed.

(** Scenario B of the specification, and its way back. *)
Lemma toggle_requests_witness :
  conservation_status (exec (toggle_conservation_mode all_on) blank)
  = CONSERVATION_ENABLED /\
  calls (exec (toggle_fnlock all_on) started_all_on)
  = [pkexec_tee fnlock_file "0"] /\
  fnlock_status (exec (toggle_fnlock all_on) started_all_on)
  = FNLOCK_DISABLED.
Proof.
  destruct (toggle_requests all_on blank) as (H1 & _).
  destruct (toggle_requests all_on started_all_on) as (_ & _ & _ & H4).
  destruct (H1 eq_refl) as [_ Hon].
  destruct (H4 eq_refl) as [Hcalls Hoff].
  split; [exact (Hon eq_refl)|]. split; [exact Hcalls | exact (Hoff eq_refl)].
Defined.

(** C8.  Independence.  Whatever the three cached values and whatever the
    outcome of the write, the toggle or cycle handler of one setting leaves
    the cached values of the other two settings as they were. *)
Theorem handlers_are_independent (s s' : Setting) (w : World)
        (self : LenovoTrayApp) :
  s <> s' -> cached s' (exec (triggered s w) self) = cached s' self.
Proof. exact (handler_frame s s' w self). Qed.

Lemma handlers_are_independent_witness :
  kbd_led <> conservation /\
  cached conservation
         (exec (triggered kbd_led (brightness "1" TimeoutExpired))
               started_all_on)
  = CONSERVATION_ENABLED.
Proof.
  assert (H : kbd_led <> conservation) by discriminate.
  split; [exact H|].
  exact (handlers_are_independent kbd_led conservation
           (brightness "1" TimeoutExpired) started_all_on H).
Defined.

(** C9.  A brightness file that holds a negative integer, "-1" for one,
    makes the refresh cache Max, not Off: only 0 and 1 are tested before the
    last branch. *)
Theorem kbd_led_negative_is_max (w : World) (self : LenovoTrayApp)
        (text : string) :
  absorbed w conservation_file -> absorbed w fnlock_file ->
  read_text w kbd_led_file = Returns text ->
  let after := kbd_led_status (exec (update_status w) self) in
  (strip text = "-1" -> after = KBD_LED_MAX) /\
  (forall n, n < 0 ->
             parse_int (int_max_str_digits w) (strip text) = Some n ->
             after = KBD_LED_MAX) /\
  KBD_LED_MAX <> KBD_LED_OFF.
Proof.
  intros Hc Hf H after. unfold after.
  rewrite (kbd_led_read w self text Hc Hf H).
  split; [|split].
  - intros ->. rewrite parse_int_minus_1. reflexivity.
  - intros n Hn ->. destruct n; try lia. reflexivity.
  - discriminate.
Qed.

Lemma kbd_led_negative_is_max_witness :
  absorbed (brightness "-1" exit_0) conservation_file /\
  absorbed (brightness "-1" exit_0) fnlock_file /\
  read_text (brightness "-1" exit_0) kbd_led_file = Returns (line "-1") /\
  kbd_led_status (exec (update_status (brightness "-1" exit_0)) blank)
  = KBD_LED_MAX.
Proof.
  split; [exact I|]. split; [exact I|]. split; [reflexivity|].
  destruct (kbd_led_negative_is_max (brightness "-1" exit_0) blank
              (line "-1") I I eq_refl) as (H & _).
  exact (H eq_refl).
Defined.

(** C10.  The members of [SettingStatus] are shared between the settings:
    the class has three members, one per value; CONSERVATION_DISABLED,
    FNLOCK_DISABLED and KBD_LED_OFF name the member of value 0, and
    CONSERVATION_ENABLED, FNLOCK_ENABLED and KBD_LED_MIN the member of value
    1.  So the status of one setting compares equal to the status of the
    same value of another setting. *)
Theorem SettingStatus_aliases :
  map Enum.value (Enum.members SettingStatus_body) = [0; 1; 2] /\
  (SettingStatus_attr "CONSERVATION_DISABLED" = Some CONSERVATION_DISABLED /\
   SettingStatus_attr "FNLOCK_DISABLED" = Some CONSERVATION_DISABLED /\
   SettingStatus_attr "KBD_LED_OFF" = Some CONSERVATION_DISABLED) /\
  (SettingStatus_attr "CONSERVATION_ENABLED" = Some CONSERVATION_ENABLED /\
   SettingStatus_attr "FNLOCK_ENABLED" = Some CONSERVATION_ENABLED /\
   SettingStatus_attr "KBD_LED_MIN" = Some CONSERVATION_ENABLED) /\
  (option_map Enum.value (Enum.getattr SettingStatus_body "KBD_LED_OFF")
   = Some 0 /\
   option_map Enum.value (Enum.getattr SettingStatus_body "KBD_LED_MIN")
   = Some 1) /\
  (status_eqb FNLOCK_DISABLED CONSERVATION_DISABLED = true /\
   status_eqb KBD_LED_OFF CONSERVATION_DISABLED = true /\
   status_eqb KBD_LED_OFF FNLOCK_DISABLED = true /\
   status_eqb FNLOCK_ENABLED CONSERVATION_ENABLED = true /\
   status_eqb KBD_LED_MIN CONSERVATION_ENABLED = true /\
   status_eqb KBD_LED_MIN FNLOCK_ENABLED = true) /\
  status_eqb (kbd_led_status (exec (cycle_kbd_leds all_on) blank))
             (conservation_status started_all_on) = true.
Proof. repeat split; reflexivity. Qed.

(** * Further properties of the code *)

(** ** A refresh and the record of requests *)

Lemma update_status_idem (w : World) (self : LenovoTrayApp) :
  update_status w (exec (update_status w) self)
  = (outcome (update_status w) self, exec (update_status w) self).
Proof.
  unfold_methods.
  repeat case_read; try reflexivity.
  all: repeat match goal with
         | |- context [String.eqb ?a "1"] => destruct (String.eqb a "1"); simpl
         end; try reflexivity.
  all: case_int; reflexivity.
Qed.

(** ** What the menu and the tooltip show *)

Lemma update_menu_text_shows (x : LenovoTrayApp) :
  menu_shows_cache (exec update_menu_text x).
Proof. reflexivity. Qed.

Lemma update_tooltip_shows (x : LenovoTrayApp) :
  tooltip_shows_cache (exec update_tooltip x).
Proof. reflexivity. Qed.

Ltac ui_fields :=
  let H := fresh "H" in
  unfold menu_shows_cache, tooltip_shows_cache, update_menu_text,
    update_tooltip, exec, bind, gets, modify, set_action_texts, set_toolTip,
    add_call, add_notification;
  simpl; intros H; injection H; intros; congruence.

Lemma update_tooltip_keeps_menu (x : LenovoTrayApp) :
  menu_shows_cache x -> menu_shows_cache (exec update_tooltip x).
Proof. destruct x. ui_fields. Qed.



Lemma show_notification_keeps_menu (w : World) (title message : string)
      (x : LenovoTrayApp) :
  menu_shows_cache x ->
  menu_shows_cache (exec (show_notification w title message) x).
Proof.
  unfold show_notification.
  destruct (supportsMessages w); [|exact (fun H => H)].
  destruct x. ui_fields.
Qed.

Lemma show_notification_keeps_tooltip (w : World) (title message : string)
      (x : LenovoTrayApp) :
  tooltip_shows_cache x ->
  tooltip_shows_cache (exec (show_notification w title message) x).
Proof.
  unfold show_notification.
  destruct (supportsMessages w); [|exact (fun H => H)].
  destruct x. ui_fields.
Qed.

(** ** The shape of a handler's effect *)

Lemma handler_failure (s : Setting) (w : World) (self : LenovoTrayApp) :
  cache_ok self ->
  wrote w (exec (triggered s w) self) = false ->
  exists value,
    exec (triggered s w) self
    = add_call (pkexec_tee (backing_file s) value) self.
Proof.
  unfold cache_ok, binary, wrote, pkexec_tee. unfold_methods.
  destruct s, self as [c f k ? ? ? ? ? ?]; simpl;
    intros [[Hc | Hc] [Hf | Hf]]; subst; simpl.
  all: try (repeat case_run; intros; try discriminate; eexists; reflexivity).
  all: destruct k; simpl;
    repeat case_run; intros; try discriminate; eexists; reflexivity.
Qed.


Lemma handler_notifies (s : Setting) (w : World) (self : LenovoTrayApp) :
  wrote w (exec (triggered s w) self) = true ->
  supportsMessages w = true ->
  exists title message,
    notifications (exec (triggered s w) self)
    = (title, message) :: notifications self /\
    action_text s (exec (triggered s w) self) = title ++ ": " ++ message.
Proof.
  unfold wrote. unfold_methods. intros H Hs. revert H. rewrite Hs.
  destruct s, self as [c f k ? ? ? ? ? ?]; simpl;
    [destruct c | destruct f | destruct k]; simpl;
    repeat case_run; intros; try discriminate;
    do 2 eexists; split; reflexivity.
Qed.

Lemma handler_silent (s : Setting) (w : World) (self : LenovoTrayApp) :
  supportsMessages w = false ->
  notifications (exec (triggered s w) self) = notifications self.
Proof.
  unfold_methods. intros Hs. rewrite Hs.
  destruct s, self as [c f k ? ? ? ? ? ?]; simpl;
    [destruct c | destruct f | destruct k]; simpl;
    repeat case_run; reflexivity.
Qed.

Lemma handler_request_domain (s : Setting) (w : World)
      (self : LenovoTrayApp) :
  exists value,
    calls (exec (triggered s w) self)
    = pkexec_tee (backing_file s) value :: calls self /\
    (value = "0" \/ value = "1" \/ (s = kbd_led /\ value = "2")).
Proof.
  destruct s; simpl.
  - rewrite toggle_conservation_request. eexists; split; [reflexivity|].
    destruct (status_eqb _ _); auto.
  - rewrite toggle_fnlock_request. eexists; split; [reflexivity|].
    destruct (status_eqb _ _); auto.
  - rewrite cycle_kbd_leds_request. eexists; split; [reflexivity|].
    destruct (status_eqb _ KBD_LED_OFF); auto.
    destruct (status_eqb _ KBD_LED_MIN); auto.
Qed.

Lemma backing_file_inj (s s' : Setting) :
  backing_file s = backing_file s' -> s = s'.
Proof. destruct s, s'; intros H; try reflexivity; discriminate H. Qed.

Lemma parse_int_small (max_str_digits : nat) :
  parse_int max_str_digits "0" = Some 0 /\
  parse_int max_str_digits "1" = Some 1 /\
  parse_int max_str_digits "2" = Some 2.
Proof.
  unfold parse_int; simpl.
  destruct max_str_digits as [|[|n]]; repeat split; reflexivity.
Qed.

Lemma written_value_reads_back_lemma (s : Setting) (w w' : World)
      (self : LenovoTrayApp) (text value : string)
      (rest : list (list string * string)) :
  wrote w (exec (triggered s w) self) = true ->
  calls (exec (triggered s w) self)
  = pkexec_tee (backing_file s) value :: rest ->
  absorbed w' conservation_file -> absorbed w' fnlock_file ->
  read_text w' (backing_file s) = Returns text ->
  strip text = value ->
  cached s (exec (update_status w') (exec (triggered s w) self))
  = cached s (exec (triggered s w) self).
Proof.
  intros Hok Hcalls Hc Hf Hread Hstrip.
  destruct (parse_int_small (int_max_str_digits w')) as (P0 & P1 & P2).
  destruct s; simpl in *.
  - rewrite (conservation_read w' _ text Hread).
    rewrite (toggle_conservation_success w self Hok).
    rewrite toggle_conservation_request in Hcalls.
    injection Hcalls as Hv. rewrite Hstrip, <- Hv.
    destruct (status_eqb _ _); reflexivity.
  - rewrite (fnlock_read w' _ text Hc Hread).
    rewrite (toggle_fnlock_success w self Hok).
    rewrite toggle_fnlock_request in Hcalls.
    injection Hcalls as Hv. rewrite Hstrip, <- Hv.
    destruct (status_eqb _ _); reflexivity.
  - rewrite (kbd_led_read w' _ text Hc Hf Hread).
    rewrite (cycle_kbd_leds_success w self Hok).
    rewrite cycle_kbd_leds_request in Hcalls.
    injection Hcalls as Hv. rewrite Hstrip, <- Hv.
    destruct (status_eqb _ KBD_LED_OFF); [now rewrite P1|].
    destruct (status_eqb _ KBD_LED_MIN); [now rewrite P2 | now rewrite P0].
Qed.

(** ** Refresh *)

Lemma update_status_sends_nothing (w : World) (self : LenovoTrayApp) :
  calls (exec (update_status w) self) = calls self /\
  notifications (exec (update_status w) self) = notifications self.
Proof.
  unfold_methods.
  repeat case_read; try (split; reflexivity).
  all: case_int; split; reflexivity.
Qed.

Lemma init_sends_nothing (w : World) :
  calls (exec (init w) blank) = [] /\ notifications (exec (init w) blank) = [].
Proof.
  unfold_methods. simpl.
  repeat case_read; try (split; reflexivity).
  all: case_int; split; reflexivity.
Qed.


Lemma init_returns_menu (w : World) :
  outcome (init w) blank = inr tt ->
  menu_shows_cache (exec (init w) blank).
Proof.
  unfold menu_shows_cache. unfold_methods. simpl.
  repeat case_read; intros; try discriminate; try reflexivity.
  all: case_int; reflexivity.
Qed.

Lemma init_toolTip (w : World) :
  toolTip (exec (init w) blank) = tooltip_all_off.
Proof.
  unfold_methods. simpl.
  repeat case_read; try reflexivity.
  all: case_int; reflexivity.
Qed.

(** ** White space around the content of a file *)

Lemma lstrip_all_space (ws : string) :
  all_space ws = true -> lstrip ws = EmptyString.
Proof.
  induction ws as [|c ws IH]; simpl; [reflexivity|].
  intros H. apply andb_true_iff in H as [Hc Hws]. rewrite Hc. now apply IH.
Qed.

Lemma rstrip_all_space (ws : string) :
  all_space ws = true -> rstrip ws = EmptyString.
Proof.
  induction ws as [|c ws IH]; simpl; [reflexivity|].
  intros H. apply andb_true_iff in H as [Hc Hws].
  rewrite (IH Hws), Hc. reflexivity.
Qed.

Lemma lstrip_app_space (ws s : string) :
  all_space ws = true -> lstrip (ws ++ s) = lstrip s.
Proof.
  induction ws as [|c ws IH]; simpl; [reflexivity|].
  intros H. apply andb_true_iff in H as [Hc Hws]. rewrite Hc. now apply IH.
Qed.

Lemma rstrip_app_space (s ws : string) :
  all_space ws = true -> rstrip (s ++ ws) = rstrip s.
Proof.
  intros H. induction s as [|c s IH]; simpl.
  - now apply rstrip_all_space.
  - rewrite IH. reflexivity.
Qed.

Lemma strip_app_space (s ws : string) :
  all_space ws = true -> strip (s ++ ws) = strip s.
Proof.
  intros H. unfold strip. induction s as [|c s IH]; simpl.
  - rewrite (lstrip_all_space ws H). reflexivity.
  - destruct (isspace c); [exact IH|].
    exact (rstrip_app_space (String c s) ws H).
Qed.

Lemma strip_surrounded (ws1 s ws2 : string) :
  all_space ws1 = true -> all_space ws2 = true ->
  strip (ws1 ++ s ++ ws2) = strip s.
Proof.
  intros H1 H2. unfold strip at 1. rewrite (lstrip_app_space ws1 _ H1).
  exact (strip_app_space s ws2 H2).
Qed.

Lemma rstrip_idem (s : string) : rstrip (rstrip s) = rstrip s.
Proof.
  induction s as [|c s IH]; simpl; [reflexivity|].
  destruct (rstrip s) as [|c' r] eqn:E.
  - destruct (isspace c) eqn:Ec; simpl; [reflexivity|]. now rewrite Ec.
  - change (rstrip (String c (String c' r)))
      with (match rstrip (String c' r) with
            | EmptyString =>
                if isspace c then EmptyString else String c EmptyString
            | r0 => String c r0
            end).
    rewrite IH. reflexivity.
Qed.

Lemma lstrip_id (s : string) :
  match s with
  | EmptyString => True
  | String c _ => isspace c = false
  end -> lstrip s = s.
Proof. destruct s as [|c s]; simpl; [reflexivity|]. now intros ->. Qed.

Lemma strip_idem (s : string) : strip (strip s) = strip s.
Proof.
  unfold strip at 1. rewrite (lstrip_id (strip s) (strip_head s)).
  unfold strip. apply rstrip_idem.
Qed.

(** ** Invariants of a run *)

Lemma reachable_requests (self : LenovoTrayApp) :
  reachable self -> Forall request_ok (calls self).
Proof.
  induction 1 as [w | sig w self _ IH].
  - destruct (init_sends_nothing w) as [-> _]. constructor.
  - destruct sig; simpl.
    + destruct (handler_request_domain s w self) as (value & -> & Hv).
      constructor; [|exact IH]. now exists s, value.
    + destruct (update_status_sends_nothing w self) as [-> _]. exact IH.
    + destruct (update_status_sends_nothing w self) as [-> _]. exact IH.
Qed.



(** The tooltip set by [init_ui] shows the cache exactly when the three
    cached values are the defaults. *)
Lemma tooltip_all_off_shows (x : LenovoTrayApp) :
  cache_ok x ->
  toolTip x = tooltip_all_off ->
  (tooltip_shows_cache x <-> forall s, cached s x = default s).
Proof.
  unfold cache_ok, binary, tooltip_shows_cache, update_tooltip, exec, bind,
    gets, modify, set_toolTip.
  destruct x as [c f k ? ? ? t ? ?]; simpl.
  intros [[-> | ->] [-> | ->]] ->; destruct k; simpl; split; intros H.
  all: try (injection H as H; discriminate H).
  all: try (intros []; reflexivity).
  all: try reflexivity.
  all: try (now pose proof (H conservation)).
  all: try (now pose proof (H fnlock)).
  all: now pose proof (H kbd_led).
Qed.

(** ** The properties *)

(** X1.  A refresh is idempotent: with the same answers of the environment,
    a second refresh returns or raises as the first did and leaves the whole
    object (cached values, menu texts, tooltip) as the first left it. *)
Theorem refresh_is_idempotent (w : World) (self : LenovoTrayApp) :
  update_status w (exec (update_status w) self) = update_status w self.
Proof.
  rewrite update_status_idem. unfold outcome, exec.
  destruct (update_status w self); reflexivity.
Qed.

(** X2.  Reading never writes: a refresh sends no [pkexec] request and shows
    no notification, and neither does [__init__]. *)
Theorem refresh_and_init_send_nothing (w : World) (self : LenovoTrayApp) :
  calls (exec (update_status w) self) = calls self /\
  notifications (exec (update_status w) self) = notifications self /\
  calls (exec (init w) blank) = [] /\
  notifications (exec (init w) blank) = [].
Proof.
  destruct (update_status_sends_nothing w self) as [H1 H2].
  destruct (init_sends_nothing w) as [H3 H4]. auto.
Qed.

(** X3.  A handler whose write fails changes nothing on the object but the
    record of the request it sent: the three cached values, the three menu
    texts and the tooltip are as before, and no notification is shown. *)
Theorem failed_handler_changes_nothing (s : Setting) (w : World)
        (self : LenovoTrayApp) :
  cache_ok self ->
  wrote w (exec (triggered s w) self) = false ->
  exists value,
    exec (triggered s w) self
    = add_call (pkexec_tee (backing_file s) value) self.
Proof. exact (handler_failure s w self). Qed.

Lemma failed_handler_changes_nothing_witness :
  cache_ok started_all_on /\
  wrote (brightness "2" TimeoutExpired)
        (exec (triggered fnlock (brightness "2" TimeoutExpired))
              started_all_on) = false /\
  exists value,
    exec (triggered fnlock (brightness "2" TimeoutExpired)) started_all_on
    = add_call (pkexec_tee fnlock_file value) started_all_on.
Proof.
  assert (H : cache_ok started_all_on) by (split; right; reflexivity).
  split; [exact H|]. split; [reflexivity|].
  exact (failed_handler_changes_nothing fnlock
           (brightness "2" TimeoutExpired) started_all_on H eq_refl).
Defined.



(** X5.  A handler whose write succeeded shows exactly one notification when
    the tray supports messages: its title and message, joined by a colon and
    a space, are the new text of the menu entry of the setting.  When the
    tray does not support messages no handler shows any. *)
Theorem successful_handler_notifies (s : Setting) (w : World)
        (self : LenovoTrayApp) :
  (wrote w (exec (triggered s w) self) = true ->
   supportsMessages w = true ->
   exists title message,
     notifications (exec (triggered s w) self)
     = (title, message) :: notifications self /\
     action_text s (exec (triggered s w) self) = title ++ ": " ++ message) /\
  (supportsMessages w = false ->
   notifications (exec (triggered s w) self) = notifications self).
Proof.
  split; [exact (handler_notifies s w self) | exact (handler_silent s w self)].
Qed.

Lemma successful_handler_notifies_witness :
  notifications (exec (triggered kbd_led all_on) blank)
  = [("Keyboard LEDs", "Min")] /\
  exists title message,
    notifications (exec (triggered kbd_led all_on) blank)
    = [(title, message)] /\
    kbd_led_action (exec (triggered kbd_led all_on) blank)
    = title ++ ": " ++ message.
Proof.
  split; [reflexivity|].
  destruct (successful_handler_notifies kbd_led all_on blank) as [H _].
  exact (H eq_refl eq_refl).
Defined.

(** X6.  Two toggles of conservation mode, or of FnLock, whose writes both
    succeed bring the cached value back to where it was. *)
Theorem two_toggles_restore (s : Setting) (w w2 : World)
        (self : LenovoTrayApp) :
  s <> kbd_led -> binary (cached s self) ->
  wrote w (exec (triggered s w) self) = true ->
  wrote w2 (exec (triggered s w2) (exec (triggered s w) self)) = true ->
  cached s (exec (triggered s w2) (exec (triggered s w) self))
  = cached s self.
Proof.
  intros Hs Hb H1 H2. destruct s; [| |congruence]; simpl in *.
  - rewrite (toggle_conservation_success w2 _ H2).
    rewrite (toggle_conservation_success w self H1).
    destruct Hb as [-> | ->]; reflexivity.
  - rewrite (toggle_fnlock_success w2 _ H2).
    rewrite (toggle_fnlock_success w self H1).
    destruct Hb as [-> | ->]; reflexivity.
Qed.

Lemma two_toggles_restore_witness :
  fnlock <> kbd_led /\ binary (cached fnlock started_all_on) /\
  cached fnlock
    (exec (triggered fnlock all_on)
          (exec (triggered fnlock all_on) started_all_on))
  = FNLOCK_ENABLED.
Proof.
  assert (H1 : fnlock <> kbd_led) by discriminate.
  assert (H2 : binary (cached fnlock started_all_on)) by (right; reflexivity).
  split; [exact H1|]. split; [exact H2|].
  exact (two_toggles_restore fnlock all_on all_on started_all_on H1 H2
           eq_refl eq_refl).
Defined.

(** X7.  A click is one attempt: the handler of a setting returns normally
    whatever the helper process does, after sending exactly one request,
    [pkexec tee] on the backing file of that setting (which is the file of
    no other setting) with "0" or "1" on standard input, or "2" for the
    keyboard. *)
Theorem handler_sends_one_request (s : Setting) (w : World)
        (self : LenovoTrayApp) :
  outcome (triggered s w) self = inr tt /\
  (exists value,
      calls (exec (triggered s w) self)
      = pkexec_tee (backing_file s) value :: calls self /\
      (value = "0" \/ value = "1" \/ (s = kbd_led /\ value = "2"))) /\
  (forall s', backing_file s = backing_file s' -> s = s').
Proof.
  split; [apply handler_returns|]. split.
  - apply handler_request_domain.
  - apply backing_file_inj.
Qed.

(** X8.  In every run, whatever the environment answers, conservation mode
    and FnLock are cached as Disabled or Enabled (never as the third member
    of the enumeration), and every request sent so far is one of the
    requests of the three handlers. *)
Theorem run_invariants (self : LenovoTrayApp) :
  reachable self -> cache_ok self /\ Forall request_ok (calls self).
Proof.
  intros H.
  split; [now apply reachable_cache_ok | now apply reachable_requests].
Qed.

Lemma run_invariants_witness :
  reachable (exec (slot (Click kbd_led) all_on) (exec (init all_on) blank)) /\
  cache_ok (exec (slot (Click kbd_led) all_on) (exec (init all_on) blank)) /\
  Forall request_ok
    (calls (exec (slot (Click kbd_led) all_on) (exec (init all_on) blank))).
Proof.
  assert (H : reachable (exec (slot (Click kbd_led) all_on)
                              (exec (init all_on) blank)))
    by (apply reachable_slot, reachable_init).
  split; [exact H | exact (run_invariants _ H)].
Defined.



(** X10.  When a refresh raises, the exception is the one raised by the read
    of a backing file, and it is neither [FileNotFoundError] nor
    [PermissionError]; the setting of that file keeps its cached value, the
    keyboard level (read last) keeps its cached value, and the menu texts
    and the tooltip are left as they were (the settings read before may
    have been assigned, so the menu can lag behind the cache). *)
Theorem raising_refresh_leaves_display (w : World) (self : LenovoTrayApp)
        (e : PyExc) :
  outcome (update_status w) self = inl e ->
  (exists s, read_text w (backing_file s) = Raises e /\
             e <> FileNotFoundError /\ e <> PermissionError /\
             cached s (exec (update_status w) self) = cached s self) /\
  kbd_led_status (exec (update_status w) self) = kbd_led_status self /\
  (forall s, action_text s (exec (update_status w) self)
             = action_text s self) /\
  toolTip (exec (update_status w) self) = toolTip self.
Proof.
  unfold_methods.
  repeat case_read; intros H; try discriminate H.
  all: try (case_int; discriminate H).
  all: injection H as <-.
  all: split; [|split; [reflexivity | split; [intros []; reflexivity
                                              | reflexivity]]].
  all: first [ exists conservation; simpl; rewrite E;
               repeat split; (reflexivity || discriminate)
             | exists fnlock; simpl;
               match goal with H : read_text _ fnlock_file = _ |- _ =>
                                 rewrite H end;
               repeat split; (reflexivity || discriminate)
             | exists kbd_led; simpl;
               match goal with H : read_text _ kbd_led_file = _ |- _ =>
                                 rewrite H end;
               repeat split; (reflexivity || discriminate) ].
Qed.

Lemma raising_refresh_leaves_display_witness :
  outcome (update_status fnlock_io_error) blank = inl OSError /\
  conservation_status (exec (update_status fnlock_io_error) blank)
  = CONSERVATION_ENABLED /\
  conservation_action (exec (update_status fnlock_io_error) blank)
  = conservation_action blank /\
  toolTip (exec (update_status fnlock_io_error) blank) = toolTip blank.
Proof.
  assert (H : outcome (update_status fnlock_io_error) blank = inl OSError)
    by reflexivity.
  destruct (raising_refresh_leaves_display fnlock_io_error blank OSError H)
    as (_ & _ & Hmenu & Htip).
  split; [exact H|]. split; [reflexivity|].
  split; [exact (Hmenu conservation) | exact Htip].
Defined.

(** X11.  After [__init__] the tooltip is the one [init_ui] set from the
    defaults, whatever the files hold: [read_initial_status] updates the menu
    texts but not the tooltip.  So the tooltip shows the cached values
    exactly when the three of them are the defaults, while the menu texts
    show them whenever [__init__] returned. *)
Theorem tooltip_after_init (w : World) :
  toolTip (exec (init w) blank) = tooltip_all_off /\
  (tooltip_shows_cache (exec (init w) blank) <->
   forall s, cached s (exec (init w) blank) = default s) /\
  (outcome (init w) blank = inr tt ->
   menu_shows_cache (exec (init w) blank)).
Proof.
  split; [apply init_toolTip|]. split.
  - apply tooltip_all_off_shows; [apply init_cache_ok | apply init_toolTip].
  - apply init_returns_menu.
Qed.

Lemma tooltip_after_init_witness :
  menu_shows_cache (exec (init all_on) blank) /\
  ~ tooltip_shows_cache (exec (init all_on) blank).
Proof.
  destruct (tooltip_after_init all_on) as (_ & [H _] & Hmenu).
  split; [exact (Hmenu eq_refl)|].
  intros Htip. discriminate (H Htip conservation).
Defined.

(** X12.  What a handler writes reads back as what it cached: after a write
    that succeeded, a refresh that finds the written value in the backing
    file of the setting (with or without white space around it) leaves the
    cached value of the setting as the handler set it. *)
Theorem written_value_reads_back (s : Setting) (w w' : World)
        (self : LenovoTrayApp) (text : string) :
  wrote w (exec (triggered s w) self) = true ->
  absorbed w' conservation_file -> absorbed w' fnlock_file ->
  read_text w' (backing_file s) = Returns text ->
  hd_error (calls (exec (triggered s w) self))
  = Some (pkexec_tee (backing_file s) (strip text)) ->
  cached s (exec (update_status w') (exec (triggered s w) self))
  = cached s (exec (triggered s w) self).
Proof.
  intros Hok Hc Hf Hread Hcall.
  destruct (handler_calls s w self) as [value Hcalls].
  rewrite Hcalls in Hcall. unfold pkexec_tee in Hcall. simpl in Hcall.
  injection Hcall as Hv.
  exact (written_value_reads_back_lemma s w w' self text value _ Hok
           Hcalls Hc Hf Hread (eq_sym Hv)).
Qed.

Lemma written_value_reads_back_witness :
  wrote all_on (exec (triggered kbd_led all_on) started_all_on) = true /\
  read_text (brightness "0" exit_0) kbd_led_file = Returns (line "0") /\
  cached kbd_led
    (exec (update_status (brightness "0" exit_0))
          (exec (triggered kbd_led all_on) started_all_on))
  = KBD_LED_OFF.
Proof.
  split; [reflexivity|]. split; [reflexivity|].
  exact (written_value_reads_back kbd_led all_on (brightness "0" exit_0)
           started_all_on (line "0") eq_refl I I eq_refl eq_refl).
Defined.

(** X13.  [read_file_value] ignores white space around the content: for text
    wrapped in any white space (the newline the kernel appends, blanks,
    tabs) it returns what it returns for the text alone, and what it returns
    has no white space left to strip. *)
Theorem surrounding_space_is_ignored (w : World) (self : LenovoTrayApp)
        (filepath ws1 text ws2 : string) :
  all_space ws1 = true -> all_space ws2 = true ->
  read_text w filepath = Returns (ws1 ++ text ++ ws2) ->
  read_file_value w filepath self = (inr (Some (strip text)), self) /\
  strip (strip text) = strip text.
Proof.
  intros H1 H2 H. split; [|apply strip_idem].
  rewrite (read_file_value_returns w self filepath _ H).
  now rewrite strip_surrounded.
Qed.

Lemma surrounding_space_is_ignored_witness :
  all_space EmptyString = true /\ all_space newline = true /\
  read_file_value all_on kbd_led_file blank = (inr (Some "2"), blank).
Proof.
  split; [reflexivity|]. split; [reflexivity|].
  exact (proj1 (surrounding_space_is_ignored all_on blank kbd_led_file
                  EmptyString "2" newline eq_refl eq_refl eq_refl)).
Defined.


